(** * TelegramGuardian: group authority and moderation

    A shallow embedding of the permission ledger, the group store, the
    command handlers and the message handler of the bot, followed by the
    properties of the specification that concern them and by further
    properties of the same code.

    Source files embedded here:
    - [bot/config.py]                      (module [Config])
    - [bot/storage/data.py]                (modules [Storage], [StorageRest])
    - [bot/utils/permissions.py]           (modules [Permissions],
                                            [PermissionsRest])
    - [bot/utils/moderation.py]            (module [Moderation])
    - [bot/utils/helpers.py]               (module [Helpers])
    - [bot/handlers/command_handlers.py]   (modules [CommandHandlers],
                                            [CommandHandlersRest])
    - [bot/handlers/message_handlers.py]   (module [MessageHandlers])

    Conventions of the embedding.
    - Python dictionaries with string keys are [gmap string _]; the values
      a group record holds are the dynamically typed [value]s below.
    - The module-level dictionary [_data], the data file and the trace of
      observable events form the [world]; Python code is a computation in
      the state-and-exception monad [M].
    - [get_group_data] returns a reference to the dictionary stored in
      [_data]; a reference is modelled by the key of the group, and item
      reads and writes through it act on the store ([getitem_default],
      [setitem], [setdefault]), so that mutation through an alias is kept.
    - The handlers are coroutines. [await e] evaluates [e] and waits for
      the awaitable it gives. The methods of the platform ([reply_text],
      [send_message], [delete], [restrict_chat_member], [ban_chat_member])
      give awaitables, and awaiting them is the call. [check_permission],
      [update_user_permission] and [check_message_content] are plain
      functions ([def], not [async def]) that give an integer, a boolean
      and a pair: awaiting what they give raises [TypeError] once the call
      has been made ([await_plain]). The text of a handler that follows
      such an [await] is embedded all the same, line by line.
    - Calls to the messaging platform and writes of the data file may
      fail; whether the attempt made at a given point of the trace fails is
      given by the two oracles carried by the world. *)

From Stdlib Require Import ZArith Lia.
From stdpp Require Import base option list gmap strings pretty.

Local Open Scope string_scope.
Local Open Scope Z_scope.
Local Open Scope list_scope.

(** ** Python values and exceptions *)

(** [str(n)] for an integer. *)
Definition str (n : Z) : string := pretty n.

(** The values found in a group record: booleans, integers, strings and
    dictionaries from strings to integers ([permissions],
    [user_warnings]). *)
Inductive value : Type :=
| VBool (b : bool)
| VInt (n : Z)
| VStr (s : string)
| VDict (d : gmap string Z).

Abbreviation obj := (gmap string value).

Inductive exn : Type :=
| TypeError
| AttributeError
| KeyError
| OSError
| TelegramError.

Inductive result (A : Type) : Type :=
| Ok (a : A)
| Raise (e : exn).
Arguments Ok {A} a.
Arguments Raise {A} e.

(** Truth value of an object in a condition. *)
Definition truthy (v : value) : bool :=
  match v with
  | VBool b => b
  | VInt n => negb (n =? 0)
  | VStr s => negb (bool_decide (s = ""))
  | VDict d => negb (bool_decide (d = ∅))
  end.

(** [v + 1]: integers and booleans add, strings and dictionaries raise. *)
Definition add_one (v : value) : result value :=
  match v with
  | VInt n => Ok (VInt (n + 1))
  | VBool b => Ok (VInt ((if b then 1 else 0) + 1))
  | VStr _ | VDict _ => Raise TypeError
  end.

(** [d.get(k, 0)] on a value expected to be a dictionary. *)
Definition dict_get (v : value) (k : string) (dflt : Z) : result Z :=
  match v with
  | VDict d => Ok (default dflt (d !! k))
  | _ => Raise AttributeError
  end.

(** [d[k] = n] on a value expected to be a dictionary. *)
Definition dict_set (v : value) (k : string) (n : Z) : result value :=
  match v with
  | VDict d => Ok (VDict (<[k := n]> d))
  | _ => Raise TypeError
  end.

(** [d[k]] on a value expected to be a dictionary. *)
Definition dict_item (v : value) (k : string) : result Z :=
  match v with
  | VDict d => match d !! k with Some n => Ok n | None => Raise KeyError end
  | _ => Raise TypeError
  end.

(** Lookup in a dictionary literal, kept as the list of its items. *)
Fixpoint assoc {V : Type} (key : string) (items : list (string * V)) : option V :=
  match items with
  | [] => None
  | (k, v) :: rest => if bool_decide (k = key) then Some v else assoc key rest
  end.

(** ** The world *)

(** [_data]: the two top-level dictionaries. *)
Record data : Type := Data {
  groups : gmap string obj;
  users : gmap string obj
}.

(** What [DATA_FILE] holds: nothing, something [json.load] rejects, or a
    dump of [_data] as [save_data] writes it, an object with the two
    dictionaries [groups] and [users]. A file that [json.load] accepts
    and that is of another shape has no counterpart here: nothing below
    speaks of a load of such a file. *)
Inductive file_state : Type :=
| Absent
| Corrupt
| Holds (d : data).

(** How an attempt to write [DATA_FILE] ends: [open(.., 'w')] fails and the
    file is untouched, [json.dump] fails after the file was truncated, or
    the dump completes. *)
Inductive write_outcome : Type :=
| OpenFails
| DumpFails
| WriteOk.

Inductive command : Type :=
| Promote | Demote | Ban | Mute | Warn | Settings.

Inductive setting_name : Type :=
| Welcome | ModerationSetting | AutoDelete.

(** The replies and notices of the handlers, by what they say. *)
Inductive notice : Type :=
| NoPermission (c : command)
| NeedTarget (c : command)
| ByUsernameUnsupported (c : command)
| TargetUnknown (c : command)
| EqualOrHigher (c : command)
| Promoted (first_name new_level : string)
| Demoted (first_name new_level : string)
| Banned (first_name : string)
| BanFailed
| Muted (first_name : string)
| MuteFailed
| Warned (first_name reason : string) (warning_count : Z)
| AutoRestricted (first_name : string)
| SettingsOverview (welcome moderation autodelete : value)
| InvalidFormat
| ValueMustBeOnOff
| SettingChanged (s : setting_name) (b : bool)
| UnknownSetting
| MessageRemoved (reason : string)
| PleaseAvoid (who reason : string).

Inductive api_call : Type :=
| ReplyText (n : notice)
| SendMessage (n : notice)
| DeleteMessage
| RestrictChatMember (user_id : Z)
| BanChatMember (user_id : Z).

Inductive log_line : Type :=
| DataLoaded
| NoDataFile
| ErrorLoadingData
| DataSaved
| ErrorSavingData
| ErrorSavingGroupData
| ErrorSettingPermission
| InappropriateContent (reason : string)
| FailedToDelete
| FailedToBan
| FailedToMute
| FailedToRestrict.

(** Observable events, oldest first in a trace. *)
Inductive event : Type :=
| Call (c : api_call) (ok : bool)
| FileWrite (o : write_outcome) (snapshot : data)
| Log (l : log_line).

Record world : Type := World {
  _data : data;
  data_file : file_state;
  trace : list event;
  (** outcome of a file write attempted when the trace has length [n] *)
  disk : nat -> write_outcome;
  (** whether a platform call attempted when the trace has length [n]
      succeeds *)
  network : nat -> bool
}.

Global Instance command_eq_dec : EqDecision command.
Proof. solve_decision. Defined.

(** ** The monad of handlers *)

Definition M (A : Type) : Type := world -> world * result A.

Definition ret {A} (a : A) : M A := fun w => (w, Ok a).

Definition raise {A} (e : exn) : M A := fun w => (w, Raise e).

Definition bind {A B} (m : M A) (k : A -> M B) : M B :=
  fun w =>
    match m w with
    | (w', Ok a) => k a w'
    | (w', Raise e) => (w', Raise e)
    end.

(** [try: m  except Exception as e: h e] *)
Definition try_except {A} (m : M A) (h : exn -> M A) : M A :=
  fun w =>
    match m w with
    | (w', Ok a) => (w', Ok a)
    | (w', Raise e) => h e w'
    end.

Definition lift {A} (r : result A) : M A := fun w => (w, r).

Notation "x <- m ;; k" := (bind m (fun x => k))
  (at level 100, m at next level, right associativity).
Notation "m ;; k" := (bind m (fun _ => k))
  (at level 100, right associativity).

(** [await e] where [e] is a call of a plain function: the call is made,
    with what it does to the world and with the error it may raise, and
    what it returns, not being awaitable, makes [await] raise
    [TypeError]. *)
Definition await_plain {A} (m : M A) : M A :=
  _ <- m ;; raise TypeError.

Definition read_data : M data := fun w => (w, Ok (_data w)).

Definition write_data (d : data) : M unit :=
  fun w => (World d (data_file w) (trace w) (disk w) (network w), Ok tt).

Definition emit (e : event) : M unit :=
  fun w =>
    (World (_data w) (data_file w) (trace w ++ [e]) (disk w) (network w),
     Ok tt).

Definition log (l : log_line) : M unit := emit (Log l).

(** A call to the platform: recorded with its outcome, raises on failure. *)
Definition call (c : api_call) : M unit :=
  fun w =>
    let ok := network w (length (trace w)) in
    let w' := World (_data w) (data_file w) (trace w ++ [Call c ok])
                    (disk w) (network w) in
    (w', if ok then Ok tt else Raise TelegramError).

(** [with open(DATA_FILE, 'w') as f: json.dump(_data, f, indent=2)] *)
Definition dump_data_file : M unit :=
  fun w =>
    let o := disk w (length (trace w)) in
    let f := match o with
             | OpenFails => data_file w
             | DumpFails => Corrupt
             | WriteOk => Holds (_data w)
             end in
    let w' := World (_data w) f (trace w ++ [FileWrite o (_data w)])
                    (disk w) (network w) in
    (w', match o with WriteOk => Ok tt | _ => Raise OSError end).

(** ** bot/config.py *)

Module Config.

Definition PERMISSION_LEVELS : list (string * Z) :=
  [ ("banned", -100);
    ("restricted", -10);
    ("regular", 0);
    ("trusted", 10);
    ("moderator", 50);
    ("admin", 100);
    ("owner", 1000) ].

(** [PERMISSION_LEVELS[name]] for one of the names of the table. *)
Definition level (name : string) : Z :=
  default 0 (assoc name PERMISSION_LEVELS).

Definition DEFAULT_CONFIG : list (string * value) :=
  [ ("moderation_enabled", VBool true);
    ("auto_delete", VBool false);
    ("welcome_enabled", VBool true);
    ("welcome_message",
      VStr "Welcome {username} to {group_name}! Please read the group rules.");
    ("rules", VStr "No rules have been set for this group yet.") ].

(** [DEFAULT_CONFIG.get(key)] *)
Definition default_of (key : string) : option value :=
  assoc key DEFAULT_CONFIG.

End Config.

(** ** bot/storage/data.py *)

Module Storage.

Definition load_data : M unit :=
  fun w =>
    match data_file w with
    | Holds d => (write_data d ;; log DataLoaded) w
    | Absent => log NoDataFile w
    | Corrupt => log ErrorLoadingData w
    end.

Definition save_data : M unit :=
  try_except (dump_data_file ;; log DataSaved)
             (fun _ => log ErrorSavingData).

(** A reference to [_data['groups'][key]]. *)
Abbreviation ref := string (only parsing).

Definition deref (r : ref) : M obj :=
  d <- read_data ;;
  match groups d !! r with
  | Some g => ret g
  | None => raise KeyError
  end.

Definition assign (r : ref) (g : obj) : M unit :=
  d <- read_data ;;
  write_data (Data (<[r := g]> (groups d)) (users d)).

(** [group_data.get(key, dflt)] *)
Definition getitem_default (r : ref) (key : string) (dflt : value) : M value :=
  g <- deref r ;;
  ret (default dflt (g !! key)).

(** [group_data[key] = v] *)
Definition setitem (r : ref) (key : string) (v : value) : M unit :=
  g <- deref r ;;
  assign r (<[key := v]> g).

(** [group_data.setdefault(key, dflt)] *)
Definition setdefault (r : ref) (key : string) (dflt : value) : M value :=
  g <- deref r ;;
  match g !! key with
  | Some v => ret v
  | None => assign r (<[key := dflt]> g) ;; ret dflt
  end.

Definition get_group_data (chat_id : Z) : M ref :=
  let chat_id_str := str chat_id in
  d <- read_data ;;
  (if bool_decide (groups d = ∅) then load_data else ret tt) ;;
  d <- read_data ;;
  (if bool_decide (is_Some (groups d !! chat_id_str)) then ret tt
   else assign chat_id_str ∅) ;;
  ret chat_id_str.

Definition save_group_data (chat_id : Z) (g : obj) : M bool :=
  try_except
    (let chat_id_str := str chat_id in
     assign chat_id_str g ;;
     save_data ;;
     ret true)
    (fun _ => log ErrorSavingGroupData ;; ret false).

End Storage.

(** ** bot/utils/permissions.py *)

Module Permissions.
Import Config Storage.

Definition check_permission (user_id chat_id : Z) : M Z :=
  group_data <- get_group_data chat_id ;;
  permissions <- getitem_default group_data "permissions" (VDict ∅) ;;
  let user_id_str := str user_id in
  lift (dict_get permissions user_id_str (level "regular")).

Definition set_permission (user_id chat_id permission_level : Z) : M bool :=
  try_except
    (group_data <- get_group_data chat_id ;;
     permissions <- getitem_default group_data "permissions" (VDict ∅) ;;
     let user_id_str := str user_id in
     permissions <- lift (dict_set permissions user_id_str permission_level) ;;
     setitem group_data "permissions" permissions ;;
     g <- deref group_data ;;
     save_group_data chat_id g ;;
     ret true)
    (fun _ => log ErrorSettingPermission ;; ret false).

Definition update_user_permission (user_id chat_id new_permission : Z) : M bool :=
  set_permission user_id chat_id new_permission.

End Permissions.

(** ** bot/utils/moderation.py *)

(** [s.lower()], on the ASCII letters. Texts are strings of bytes here,
    and [str.lower] also changes letters outside ASCII, which this
    definition leaves as they are. Two texts with the same image under it
    differ in the case of ASCII letters only, and so have the same image
    under [str.lower]: that is all that is stated of it below. *)
Definition lower_ascii (c : Ascii.ascii) : Ascii.ascii :=
  let n := Ascii.nat_of_ascii c in
  if (Nat.leb 65 n && Nat.leb n 90)%bool then Ascii.ascii_of_nat (n + 32)%nat
  else c.

Fixpoint lower (s : string) : string :=
  match s with
  | EmptyString => EmptyString
  | String c s' => String (lower_ascii c) (lower s')
  end.

Module Moderation.
Section WithRegex.

(** [re.search(pattern, s)], giving [match.group(0)] when there is a
    match. *)
Variable re_search : string -> string -> option string.

Definition INAPPROPRIATE_TERMS : list string :=
  [ "\b(badword1|badword2|badword3)\b" ].

(** The loop over the patterns: the first pattern that matches decides. *)
Fixpoint first_match (patterns : list string) (s : string) : option string :=
  match patterns with
  | [] => None
  | pattern :: rest =>
      match re_search pattern s with
      | Some matched_term => Some matched_term
      | None => first_match rest s
      end
  end.

Definition check_message_content (message : string) : bool * string :=
  if bool_decide (message = "") then (true, "")
  else
    let message_lower := lower message in
    match first_match INAPPROPRIATE_TERMS message_lower with
    | Some matched_term =>
        (false, "Contains inappropriate term: " +:+ matched_term)
    | None => (true, "")
    end.

End WithRegex.
End Moderation.

(** ** Updates delivered by the platform *)

Record User : Type := mkUser {
  user_id : Z;                      (* [user.id] *)
  first_name : string;
  username : option string
}.

Record Chat : Type := mkChat {
  chat_id : Z;                      (* [chat.id] *)
  chat_type : string;               (* [chat.type] *)
  title : string
}.

(** The message replied to, with its sender when it has one. *)
Record Replied : Type := mkReplied {
  from_user : option User
}.

Record Message : Type := mkMessage {
  text : string;
  reply_to_message : option Replied
}.

Record Update : Type := mkUpdate {
  effective_user : User;
  effective_chat : Chat;
  update_message : Message          (* [update.message] *)
}.

Record Context : Type := mkContext {
  args : list string
}.

(** [' '.join(words)] *)
Fixpoint join (words : list string) : string :=
  match words with
  | [] => ""
  | [w] => w
  | w :: rest => w +:+ " " +:+ join rest
  end.

(** [user.username or user.first_name] *)
Definition display_name (u : User) : string :=
  match username u with
  | Some name => if bool_decide (name = "") then first_name u else name
  | None => first_name u
  end.

Definition nonempty {A} (l : list A) : bool :=
  match l with [] => false | _ :: _ => true end.

(** [update.message.reply_text(..)] and the calls on [context.bot]. *)
Definition reply_text (n : notice) : M unit := call (ReplyText n).
Definition send_message (n : notice) : M unit := call (SendMessage n).

(** ** bot/handlers/command_handlers.py *)

Module CommandHandlers.
Import Config Storage Permissions.

Definition promote_command (update : Update) (context : Context) : M unit :=
  let user := effective_user update in
  let chat := effective_chat update in
  let reply := reply_to_message (update_message update) in
  user_permission <-
    await_plain (check_permission (user_id user) (chat_id chat)) ;;
  if user_permission <? level "admin" then
    reply_text (NoPermission Promote)
  else if (negb (bool_decide (is_Some reply)) && negb (nonempty (args context)))%bool then
    reply_text (NeedTarget Promote)
  else
    let continue (target_user : option User) : M unit :=
      match target_user with
      | None => reply_text (TargetUnknown Promote)
      | Some target_user =>
          target_permission <-
            await_plain (check_permission (user_id target_user) (chat_id chat)) ;;
          if target_permission >=? user_permission then
            reply_text (EqualOrHigher Promote)
          else
            let new_level :=
              if target_permission <? level "moderator" then "moderator" else "admin" in
            await_plain
              (update_user_permission (user_id target_user) (chat_id chat)
                 (level new_level)) ;;
            reply_text (Promoted (first_name target_user) new_level)
      end in
    match reply with
    | Some r => continue (from_user r)
    | None =>
        if nonempty (args context) then reply_text (ByUsernameUnsupported Promote)
        else continue None
    end.

Definition demote_command (update : Update) (context : Context) : M unit :=
  let user := effective_user update in
  let chat := effective_chat update in
  let reply := reply_to_message (update_message update) in
  user_permission <-
    await_plain (check_permission (user_id user) (chat_id chat)) ;;
  if user_permission <? level "admin" then
    reply_text (NoPermission Demote)
  else if (negb (bool_decide (is_Some reply)) && negb (nonempty (args context)))%bool then
    reply_text (NeedTarget Demote)
  else
    let continue (target_user : option User) : M unit :=
      match target_user with
      | None => reply_text (TargetUnknown Demote)
      | Some target_user =>
          target_permission <-
            await_plain (check_permission (user_id target_user) (chat_id chat)) ;;
          if target_permission >=? user_permission then
            reply_text (EqualOrHigher Demote)
          else
            let new_level :=
              if target_permission >=? level "moderator" then "regular" else "restricted" in
            await_plain
              (update_user_permission (user_id target_user) (chat_id chat)
                 (level new_level)) ;;
            reply_text (Demoted (first_name target_user) new_level)
      end in
    match reply with
    | Some r => continue (from_user r)
    | None =>
        if nonempty (args context) then reply_text (ByUsernameUnsupported Demote)
        else continue None
    end.

Definition ban_command (update : Update) (context : Context) : M unit :=
  let user := effective_user update in
  let chat := effective_chat update in
  let reply := reply_to_message (update_message update) in
  user_permission <-
    await_plain (check_permission (user_id user) (chat_id chat)) ;;
  if user_permission <? level "admin" then
    reply_text (NoPermission Ban)
  else if (negb (bool_decide (is_Some reply)) && negb (nonempty (args context)))%bool then
    reply_text (NeedTarget Ban)
  else
    let continue (target_user : option User) : M unit :=
      match target_user with
      | None => reply_text (TargetUnknown Ban)
      | Some target_user =>
          target_permission <-
            await_plain (check_permission (user_id target_user) (chat_id chat)) ;;
          if target_permission >=? user_permission then
            reply_text (EqualOrHigher Ban)
          else
            await_plain
              (update_user_permission (user_id target_user) (chat_id chat)
                 (level "banned")) ;;
            try_except
              (call (BanChatMember (user_id target_user)) ;;
               reply_text (Banned (first_name target_user)))
              (fun _ => log FailedToBan ;; reply_text BanFailed)
      end in
    match reply with
    | Some r => continue (from_user r)
    | None =>
        if nonempty (args context) then reply_text (ByUsernameUnsupported Ban)
        else continue None
    end.

Definition mute_command (update : Update) (context : Context) : M unit :=
  let user := effective_user update in
  let chat := effective_chat update in
  let reply := reply_to_message (update_message update) in
  user_permission <-
    await_plain (check_permission (user_id user) (chat_id chat)) ;;
  if user_permission <? level "moderator" then
    reply_text (NoPermission Mute)
  else if (negb (bool_decide (is_Some reply)) && negb (nonempty (args context)))%bool then
    reply_text (NeedTarget Mute)
  else
    match reply with
    | None => reply_text (ByUsernameUnsupported Mute)
    | Some r =>
        match from_user r with
        | None => reply_text (TargetUnknown Mute)
        | Some target_user =>
            target_permission <-
              await_plain (check_permission (user_id target_user) (chat_id chat)) ;;
            if target_permission >=? user_permission then
              reply_text (EqualOrHigher Mute)
            else
              await_plain
                (update_user_permission (user_id target_user) (chat_id chat)
                   (level "restricted")) ;;
              try_except
                (call (RestrictChatMember (user_id target_user)) ;;
                 reply_text (Muted (first_name target_user)))
                (fun _ => log FailedToMute ;; reply_text MuteFailed)
        end
    end.

Definition warn_command (update : Update) (context : Context) : M unit :=
  let user := effective_user update in
  let chat := effective_chat update in
  user_permission <-
    await_plain (check_permission (user_id user) (chat_id chat)) ;;
  if user_permission <? level "moderator" then
    reply_text (NoPermission Warn)
  else
    match reply_to_message (update_message update) with
    | None => reply_text (NeedTarget Warn)
    | Some r =>
        match from_user r with
        | None => raise AttributeError        (* [target_user.id] on [None] *)
        | Some target_user =>
            target_permission <-
              await_plain (check_permission (user_id target_user) (chat_id chat)) ;;
            if target_permission >=? user_permission then
              reply_text (EqualOrHigher Warn)
            else
              let reason :=
                if nonempty (args context) then join (args context)
                else "Inappropriate behavior" in
              group_data <- get_group_data (chat_id chat) ;;
              let target_id_str := str (user_id target_user) in
              user_warnings <- setdefault group_data "user_warnings" (VDict ∅) ;;
              n <- lift (dict_get user_warnings target_id_str 0) ;;
              user_warnings <- lift (dict_set user_warnings target_id_str (n + 1)) ;;
              setitem group_data "user_warnings" user_warnings ;;
              issued <- getitem_default group_data "warnings_issued" (VInt 0) ;;
              issued <- lift (add_one issued) ;;
              setitem group_data "warnings_issued" issued ;;
              g <- deref group_data ;;
              save_group_data (chat_id chat) g ;;
              warning_count <- lift (dict_item user_warnings target_id_str) ;;
              reply_text (Warned (first_name target_user) reason warning_count) ;;
              if warning_count >=? 3 then
                try_except
                  (call (RestrictChatMember (user_id target_user)) ;;
                   await_plain
                     (update_user_permission (user_id target_user)
                        (chat_id chat) (level "restricted")) ;;
                   reply_text (AutoRestricted (first_name target_user)))
                  (fun _ => log FailedToRestrict)
              else ret tt
        end
    end.

Definition settings_command (update : Update) (context : Context) : M unit :=
  let user := effective_user update in
  let chat := effective_chat update in
  user_permission <-
    await_plain (check_permission (user_id user) (chat_id chat)) ;;
  if user_permission <? level "admin" then
    reply_text (NoPermission Settings)
  else
    group_data <- get_group_data (chat_id chat) ;;
    welcome <- getitem_default group_data "welcome_enabled" (VBool true) ;;
    moderation <- getitem_default group_data "moderation_enabled" (VBool true) ;;
    autodelete <- getitem_default group_data "auto_delete_enabled" (VBool true) ;;
    let settings := SettingsOverview welcome moderation autodelete in
    match args context with
    | [] => reply_text settings
    | [arg0; arg1] =>
        let setting := lower arg0 in
        let value := lower arg1 in
        if negb (bool_decide (value = "on") || bool_decide (value = "off")) then
          reply_text ValueMustBeOnOff
        else
          let value_bool := bool_decide (value = "on") in
          let store (key : string) (s : setting_name) : M unit :=
            setitem group_data key (VBool value_bool) ;;
            g <- deref group_data ;;
            save_group_data (chat_id chat) g ;;
            reply_text (SettingChanged s value_bool) in
          if bool_decide (setting = "welcome") then
            store "welcome_enabled" Welcome
          else if bool_decide (setting = "moderation") then
            store "moderation_enabled" ModerationSetting
          else if bool_decide (setting = "autodelete") then
            store "auto_delete_enabled" AutoDelete
          else reply_text UnknownSetting
    | _ => reply_text InvalidFormat
    end.

End CommandHandlers.

(** ** bot/handlers/message_handlers.py *)

Module MessageHandlers.
Import Config Storage Permissions.
Section WithRegex.

Variable re_search : string -> string -> option string.

Definition handle_text_message (update : Update) (context : Context) : M unit :=
  let user := effective_user update in
  let chat := effective_chat update in
  let message := text (update_message update) in
  if bool_decide (chat_type chat = "private") then ret tt
  else
    group_data <- get_group_data (chat_id chat) ;;
    message_count <- getitem_default group_data "message_count" (VInt 0) ;;
    message_count <- lift (add_one message_count) ;;
    setitem group_data "message_count" message_count ;;
    g <- deref group_data ;;
    save_group_data (chat_id chat) g ;;
    user_permission <-
      await_plain (check_permission (user_id user) (chat_id chat)) ;;
    if ((user_permission <=? level "restricted")
        && (user_permission =? level "banned"))%bool then
      call DeleteMessage
    else
      moderation_enabled <- getitem_default group_data "moderation_enabled" (VBool true) ;;
      if truthy moderation_enabled then
        checked <-
          await_plain
            (ret (Moderation.check_message_content re_search message)) ;;
        let '(is_appropriate, reason) := checked in
        if negb is_appropriate then
          log (InappropriateContent reason) ;;
          auto_delete_enabled <-
            getitem_default group_data "auto_delete_enabled" (VBool true) ;;
          if truthy auto_delete_enabled then
            try_except
              (call DeleteMessage ;;
               send_message (MessageRemoved reason))
              (fun _ => log FailedToDelete)
          else
            send_message (PleaseAvoid (display_name user) reason)
        else ret tt
      else ret tt.

End WithRegex.
End MessageHandlers.

(** ** Observations on worlds and runs *)

Section Observations.
Import Config Storage Permissions.

(** The world once the record of the group is in memory. *)
Definition settle (chat_id : Z) (w : world) : world :=
  fst (get_group_data chat_id w).

(** The world with the record under key [r] replaced. *)
Definition with_group (r : string) (g : obj) (w : world) : world :=
  World (Data (<[r := g]> (groups (_data w))) (users (_data w)))
        (data_file w) (trace w) (disk w) (network w).

(** The world after [save_data]. *)
Definition written (w : world) : world :=
  let o := disk w (length (trace w)) in
  World (_data w)
        (match o with
         | OpenFails => data_file w
         | DumpFails => Corrupt
         | WriteOk => Holds (_data w)
         end)
        (trace w ++ [FileWrite o (_data w);
                     Log (match o with WriteOk => DataSaved | _ => ErrorSavingData end)])
        (disk w) (network w).

(** The world after a platform call. *)
Definition called (c : api_call) (w : world) : world :=
  World (_data w) (data_file w)
        (trace w ++ [Call c (network w (length (trace w)))])
        (disk w) (network w).

Definition logged (l : log_line) (w : world) : world :=
  World (_data w) (data_file w) (trace w ++ [Log l]) (disk w) (network w).

(** The rank a group record gives a user. *)
Definition rank_in (g : obj) (user_id : Z) : result Z :=
  dict_get (default (VDict ∅) (g !! "permissions")) (str user_id) (level "regular").

(** The events a run from [w] to [w'] added to the trace. *)
Definition emitted (w w' : world) : list event :=
  drop (length (trace w)) (trace w').

(** The handler registered for each command
    ([register_command_handlers]). *)
Definition handler (c : command) : Update -> Context -> M unit :=
  match c with
  | Promote => CommandHandlers.promote_command
  | Demote => CommandHandlers.demote_command
  | Ban => CommandHandlers.ban_command
  | Mute => CommandHandlers.mute_command
  | Warn => CommandHandlers.warn_command
  | Settings => CommandHandlers.settings_command
  end.

(** The verdict of the content screen, as the specification names it, and
    how it shows in the events of a run: a detection is logged, and what
    follows it is either the attempt to delete the message or the notice
    that asks the sender to refrain. *)
Inductive Action : Type :=
| Allow
| Flag (reason : string)
| Remove (reason : string).

Fixpoint screen_action (evs : list event) : Action :=
  match evs with
  | [] => Allow
  | Log (InappropriateContent reason) :: rest =>
      match rest with
      | Call DeleteMessage _ :: _ => Remove reason
      | _ => Flag reason
      end
  | _ :: rest => screen_action rest
  end.

(** The platform calls attempted in a list of events. *)
Fixpoint calls (evs : list event) : list api_call :=
  match evs with
  | [] => []
  | Call c _ :: rest => c :: calls rest
  | _ :: rest => calls rest
  end.

(** The data written by each attempt to write the data file, in order. *)
Fixpoint snapshots (evs : list event) : list data :=
  match evs with
  | [] => []
  | FileWrite _ d :: rest => d :: snapshots rest
  | _ :: rest => snapshots rest
  end.

(** The world once a text message has been counted and the count
    saved. *)
Definition message_counted (chat_id : Z) (g : obj) (count : value) (w : world)
  : world :=
  written (with_group (str chat_id) (<["message_count" := count]> g) w).

End Observations.

(** ** Sample worlds

    A group [-7] in which user 1 is an admin and user 2 a moderator, with a
    reliable disk and network, and the update in which user 1 replies to a
    message of user 2. *)

Definition sample_group : obj :=
  {[ "permissions" := VDict {[ "1" := 100; "2" := 50 ]} ]}.

Definition sample_world : world :=
  World (Data {[ "-7" := sample_group ]} ∅) Absent []
        (fun _ => WriteOk) (fun _ => true).

(** The same world with a disk that cannot be opened for writing. *)
Definition readonly_world : world :=
  World (_data sample_world) Absent [] (fun _ => OpenFails) (fun _ => true).

(** The sample world once user 3 has been warned twice. *)
Definition warned_group : obj :=
  <["user_warnings" := VDict {[ "3" := 2 ]}]>
    (<["warnings_issued" := VInt 2]> sample_group).

Definition warned_world : world :=
  World (Data {[ "-7" := warned_group ]} ∅) Absent []
        (fun _ => WriteOk) (fun _ => true).

Definition alice : User := mkUser 1 "Alice" None.
Definition bob : User := mkUser 2 "Bob" (Some "bob").
Definition carol : User := mkUser 3 "Carol" None.

(** A stand-in for [re.search] that finds the word [badword1]. *)
Definition sample_search (pattern s : string) : option string :=
  match String.index 0 "badword1" s with
  | Some _ => Some "badword1"
  | None => None
  end.

Definition sample_chat : Chat := mkChat (-7) "supergroup" "Guardians".

Definition reply_to (sender target : User) (body : string) : Update :=
  mkUpdate sender sample_chat (mkMessage body (Some (mkReplied (Some target)))).

(** ** A statement of the specification that the code does not meet

    It is given here as the specification words it, to be refuted on a
    sample world below. *)

Section AsStated.
Import Config Storage Permissions.

(** "on persistence failure the in-memory mutation is rolled back and the
    call fails with a StoreWriteFailure" *)
Definition failed_write_rolls_back : Prop :=
  forall chat_id g w w' r,
    save_group_data chat_id g w = (w', r) ->
    disk w (length (trace w)) <> WriteOk ->
    groups (_data w') !! str chat_id = groups (_data w) !! str chat_id /\
    exists e, r = Raise e.

End AsStated.

(** ** Further functions of the source *)

(** [d.get(k, None)] on a value expected to be a dictionary. *)
Definition dict_get_opt (v : value) (k : string) : result (option Z) :=
  match v with
  | VDict d => Ok (d !! k)
  | _ => Raise AttributeError
  end.

(** *** bot/storage/data.py, continued *)

Module StorageRest.
Import Storage.

(** What importing the module does: [_data] starts with two empty
    dictionaries, and the last line of the module calls [load_data()]. *)
Definition module_init : M unit :=
  write_data (Data ∅ ∅) ;;
  load_data.

(** A reference to [_data['users'][key]]. *)
Definition assign_user (r : ref) (u : obj) : M unit :=
  d <- read_data ;;
  write_data (Data (groups d) (<[r := u]> (users d))).

Definition get_user_data (user_id : Z) : M ref :=
  let user_id_str := str user_id in
  d <- read_data ;;
  (if bool_decide (users d = ∅) then load_data else ret tt) ;;
  d <- read_data ;;
  (if bool_decide (is_Some (users d !! user_id_str)) then ret tt
   else assign_user user_id_str ∅) ;;
  ret user_id_str.

End StorageRest.

(** *** bot/utils/permissions.py, continued *)

Definition upper_ascii (c : Ascii.ascii) : Ascii.ascii :=
  let n := Ascii.nat_of_ascii c in
  if (Nat.leb 97 n && Nat.leb n 122)%bool then Ascii.ascii_of_nat (n - 32)%nat
  else c.

(** [s.capitalize()], on the ASCII letters. *)
Definition capitalize (s : string) : string :=
  match s with
  | EmptyString => EmptyString
  | String c s' => String (upper_ascii c) (lower s')
  end.

Module PermissionsRest.
Import Config.

(** The loop over [PERMISSION_LEVELS.items()]: the first name whose level
    is the one asked for. *)
Fixpoint name_of_level (items : list (string * Z)) (permission_level : Z)
  : option string :=
  match items with
  | [] => None
  | (name, level) :: rest =>
      if level =? permission_level then Some name
      else name_of_level rest permission_level
  end.

Definition get_permission_name (permission_level : Z) : string :=
  match name_of_level PERMISSION_LEVELS permission_level with
  | Some name => capitalize name
  | None => "Unknown"
  end.

Section InitGroupPermissions.
Import Storage.

(** The two lines [init_group_permissions] logs, the one of success and
    the one of failure. Its argument [bot] is not used by its text. *)
Variables (permissions_initialized error_initializing : log_line).

Definition init_group_permissions (chat_id : Z) : M unit :=
  try_except
    (group_data <- get_group_data chat_id ;;
     permissions <- getitem_default group_data "permissions" (VDict ∅) ;;
     setitem group_data "permissions" permissions ;;
     g <- deref group_data ;;
     save_group_data chat_id g ;;
     log permissions_initialized)
    (fun _ => log error_initializing).

End InitGroupPermissions.

End PermissionsRest.

(** *** bot/utils/helpers.py *)

Module Helpers.
Import Config Storage StorageRest.

(** The dictionary [get_user_profile] returns. *)
Record profile : Type := Profile {
  profile_user_id : Z;              (* ['user_id'] *)
  permission_level : Z;
  global_data : ref;                (* what [get_user_data] returned *)
  warnings : Z;
  joined_date : option Z
}.

Definition get_user_profile (user_id chat_id : Z) : M profile :=
  user_data <- get_user_data user_id ;;
  group_data <- get_group_data chat_id ;;
  permissions <- getitem_default group_data "permissions" (VDict ∅) ;;
  let user_id_str := str user_id in
  permission_level <- lift (dict_get permissions user_id_str 0) ;;
  warnings_dict <- getitem_default group_data "warnings" (VDict ∅) ;;
  warnings <- lift (dict_get warnings_dict user_id_str 0) ;;
  member_joined <- getitem_default group_data "member_joined" (VDict ∅) ;;
  joined_date <- lift (dict_get_opt member_joined user_id_str) ;;
  ret (Profile user_id permission_level user_data warnings joined_date).

End Helpers.

(** *** bot/handlers/command_handlers.py, continued *)

Module CommandHandlersRest.
Import Config Storage Permissions.

Definition get_permission_name (permission_level : Z) : string :=
  match PermissionsRest.name_of_level PERMISSION_LEVELS permission_level with
  | Some name => name
  | None => "unknown"
  end.

Section Unmute.

(** What the replies of [unmute_command] say and the line it logs, in the
    order in which they occur in its text. *)
Variables (no_permission need_target by_username_unsupported
           target_unknown : notice).
Variable unmuted : string -> notice.
Variable unmute_failed : notice.
Variable failed_to_unmute : log_line.

Definition unmute_command (update : Update) (context : Context) : M unit :=
  let user := effective_user update in
  let chat := effective_chat update in
  let reply := reply_to_message (update_message update) in
  user_permission <-
    await_plain (check_permission (user_id user) (chat_id chat)) ;;
  if user_permission <? level "moderator" then
    reply_text no_permission
  else if (negb (bool_decide (is_Some reply)) && negb (nonempty (args context)))%bool then
    reply_text need_target
  else
    match reply with
    | None => reply_text by_username_unsupported
    | Some r =>
        match from_user r with
        | None => reply_text target_unknown
        | Some target_user =>
            await_plain
              (update_user_permission (user_id target_user) (chat_id chat)
                 (level "regular")) ;;
            try_except
              (call (RestrictChatMember (user_id target_user)) ;;
               reply_text (unmuted (first_name target_user)))
              (fun _ => log failed_to_unmute ;; reply_text unmute_failed)
        end
    end.

End Unmute.

Section Unban.

(** What the three replies of [unban_command] say. *)
Variables (no_permission need_username not_implemented : notice).

Definition unban_command (update : Update) (context : Context) : M unit :=
  let user := effective_user update in
  let chat := effective_chat update in
  user_permission <-
    await_plain (check_permission (user_id user) (chat_id chat)) ;;
  if user_permission <? level "admin" then
    reply_text no_permission
  else
    match args context with
    | [] => reply_text need_username
    | username :: _ =>
        let username :=
          if String.prefix "@" username
          then String.substring 1 (String.length username - 1)%nat username
          else username in
        reply_text not_implemented
    end.

End Unban.
End CommandHandlersRest.

(** *** Observations for the functions above *)

Section MoreObservations.
Import Config Storage StorageRest Permissions.

(** The world once the record of the user is in memory. *)
Definition settle_user (user_id : Z) (w : world) : world :=
  fst (get_user_data user_id w).

(** A restart of the process: the world keeps its file and its oracles,
    and the module is imported afresh. *)
Definition restart (w : world) : world := fst (module_init w).

End MoreObservations.

(** *** More sample worlds *)

(** A world after a restart that found no group in the file's place in
    memory: the file holds the sample data, memory holds one user record
    that was never saved. *)
Definition stale_world : world :=
  World (Data ∅ {[ "9" := {[ "language" := VStr "en" ]} ]})
        (Holds (_data sample_world)) []
        (fun _ => WriteOk) (fun _ => true).

(** A world whose memory is ahead of its file: user 3 has been warned twice
    in memory, the file still holds the sample data, no user is in
    memory. *)
Definition unsaved_world : world :=
  World (_data warned_world) (Holds (_data sample_world)) []
        (fun _ => WriteOk) (fun _ => true).

(** The sample world, saved, with a disk that has become read-only. *)
Definition locked_disk_world : world :=
  World (_data sample_world) (Holds (_data sample_world)) []
        (fun _ => OpenFails) (fun _ => true).


(** The sample world with a disk that fills up while the file is written. *)
Definition full_disk_world : world :=
  World (_data sample_world) (Holds (_data sample_world)) []
        (fun _ => DumpFails) (fun _ => true).

(** A group whose message count was stored as text. *)
Definition miscounted_world : world :=
  World (Data {[ "-7" := <["message_count" := VStr "many"]> sample_group ]} ∅)
        Absent [] (fun _ => WriteOk) (fun _ => true).

(** * Properties *)

Import Config Storage Permissions CommandHandlers.

(** ** The monad, step by step *)

Lemma bind_ok {A B} (m : M A) (k : A -> M B) w w1 a :
  m w = (w1, Ok a) -> bind m k w = k a w1.
Proof. intros H. unfold bind. by rewrite H. Qed.

Lemma bind_raise {A B} (m : M A) (k : A -> M B) w w1 e :
  m w = (w1, Raise e) -> bind m k w = (w1, Raise e).
Proof. intros H. unfold bind. by rewrite H. Qed.

Lemma try_ok {A} (m : M A) h w w1 a :
  m w = (w1, Ok a) -> try_except m h w = (w1, Ok a).
Proof. intros H. unfold try_except. by rewrite H. Qed.

Lemma try_raise {A} (m : M A) h w w1 e :
  m w = (w1, Raise e) -> try_except m h w = h e w1.
Proof. intros H. unfold try_except. by rewrite H. Qed.

Lemma str_inj a b : str a = str b -> a = b.
Proof. unfold str. apply (inj pretty). Qed.

Lemma world_eta w :
  World (_data w) (data_file w) (trace w) (disk w) (network w) = w.
Proof. by destruct w. Qed.

Lemma data_eta d : Data (groups d) (users d) = d.
Proof. by destruct d. Qed.

(** ** Projections of the world transformers *)

Lemma groups_with_group r g w :
  groups (_data (with_group r g w)) = <[r := g]> (groups (_data w)).
Proof. reflexivity. Qed.

Lemma lookup_with_group r g w :
  groups (_data (with_group r g w)) !! r = Some g.
Proof. rewrite groups_with_group. apply lookup_insert_eq. Qed.

Lemma lookup_with_group_ne r r' g w :
  r <> r' ->
  groups (_data (with_group r g w)) !! r' = groups (_data w) !! r'.
Proof. intros. rewrite groups_with_group. by apply lookup_insert_ne. Qed.

Lemma data_written w : _data (written w) = _data w.
Proof. reflexivity. Qed.

Lemma data_called c w : _data (called c w) = _data w.
Proof. reflexivity. Qed.

Lemma data_logged l w : _data (logged l w) = _data w.
Proof. reflexivity. Qed.

Lemma with_group_id r g w :
  groups (_data w) !! r = Some g -> with_group r g w = w.
Proof.
  intros H. unfold with_group. rewrite insert_id by done.
  rewrite data_eta. apply world_eta.
Qed.

Lemma with_group_twice r g g' w :
  with_group r g' (with_group r g w) = with_group r g' w.
Proof.
  unfold with_group; cbn [_data data_file trace disk network groups users].
  by rewrite insert_insert_eq.
Qed.

(** ** Runs of the storage functions *)

Lemma get_group_data_ok chat_id w :
  get_group_data chat_id w = (settle chat_id w, Ok (str chat_id)).
Proof.
  unfold settle, get_group_data, assign, load_data.
  unfold bind, ret, read_data, write_data, log, emit.
  destruct w as [d f t dk nw]; cbn [_data data_file trace disk network].
  case_bool_decide.
  - destruct f; cbn [_data data_file trace disk network];
      case_bool_decide; reflexivity.
  - case_bool_decide; reflexivity.
Qed.

Lemma get_group_data_resident chat_id w :
  is_Some (groups (_data w) !! str chat_id) ->
  get_group_data chat_id w = (w, Ok (str chat_id)).
Proof.
  intros Hres.
  unfold get_group_data, assign, load_data.
  unfold bind, ret, read_data, write_data, log, emit.
  destruct w as [d f t dk nw]; cbn [_data data_file trace disk network] in *.
  rewrite bool_decide_eq_false_2.
  - rewrite bool_decide_eq_true_2 by done. reflexivity.
  - intros Hempty. rewrite Hempty, lookup_empty in Hres. by destruct Hres.
Qed.

Lemma settle_resident chat_id w :
  is_Some (groups (_data (settle chat_id w)) !! str chat_id).
Proof.
  unfold settle, get_group_data, assign, load_data.
  unfold bind, ret, read_data, write_data, log, emit.
  destruct w as [d f t dk nw]; cbn [_data data_file trace disk network].
  case_bool_decide.
  - destruct f; cbn [_data data_file trace disk network];
      case_bool_decide; cbn [fst _data groups]; try done;
      rewrite lookup_insert_eq; done.
  - case_bool_decide; cbn [fst _data groups]; try done.
    rewrite lookup_insert_eq; done.
Qed.

Lemma settle_settled chat_id w :
  is_Some (groups (_data w) !! str chat_id) -> settle chat_id w = w.
Proof. intros H. unfold settle. by rewrite get_group_data_resident. Qed.

(** Settling only adds log lines and leaves the oracles alone. *)
Lemma settle_frame chat_id w :
  disk (settle chat_id w) = disk w /\
  network (settle chat_id w) = network w /\
  exists lines : list log_line,
    trace (settle chat_id w) = (trace w ++ (Log <$> lines))%list.
Proof.
  unfold settle, get_group_data, assign, load_data.
  unfold bind, ret, read_data, write_data, log, emit.
  destruct w as [d f t dk nw]; cbn [_data data_file trace disk network].
  case_bool_decide.
  - destruct f; cbn [_data data_file trace disk network];
      case_bool_decide; cbn [fst _data groups trace disk network];
      (split; [done|split; [done|]]);
      first [ by exists [NoDataFile] | by exists [ErrorLoadingData]
            | by exists [DataLoaded] ].
  - case_bool_decide; cbn [fst _data groups trace disk network];
      (split; [done|split; [done|]]); exists []; by rewrite app_nil_r.
Qed.

Section Resident.
Variables (w : world) (r : string) (g : obj).
Hypothesis resident : groups (_data w) !! r = Some g.

Lemma deref_run : deref r w = (w, Ok g).
Proof.
  unfold deref, bind, read_data, ret. cbv beta iota. by rewrite resident.
Qed.

Lemma getitem_default_run key dflt :
  getitem_default r key dflt w = (w, Ok (default dflt (g !! key))).
Proof. unfold getitem_default. by rewrite (bind_ok _ _ _ _ _ deref_run). Qed.

Lemma setitem_run key v :
  setitem r key v w = (with_group r (<[key := v]> g) w, Ok tt).
Proof. unfold setitem. by rewrite (bind_ok _ _ _ _ _ deref_run). Qed.

Lemma setdefault_run key dflt :
  setdefault r key dflt w =
  match g !! key with
  | Some v => (w, Ok v)
  | None => (with_group r (<[key := dflt]> g) w, Ok dflt)
  end.
Proof.
  unfold setdefault. rewrite (bind_ok _ _ _ _ _ deref_run).
  by destruct (g !! key).
Qed.

End Resident.

Lemma save_data_run w : save_data w = (written w, Ok tt).
Proof.
  unfold save_data, try_except, bind, dump_data_file, log, emit, written.
  cbn [_data data_file trace disk network].
  destruct (disk w (length (trace w))); cbn [_data data_file trace disk network];
    by rewrite <- ?app_assoc.
Qed.

Lemma save_group_data_run chat_id g w :
  save_group_data chat_id g w = (written (with_group (str chat_id) g w), Ok true).
Proof.
  unfold save_group_data.
  apply try_ok.
  unfold assign, read_data, write_data.
  unfold bind at 1 2. cbv beta iota.
  erewrite bind_ok by apply save_data_run. reflexivity.
Qed.

(** ** Runs of the permission functions *)

Lemma check_permission_resident user_id chat_id w g :
  groups (_data w) !! str chat_id = Some g ->
  check_permission user_id chat_id w = (w, rank_in g user_id).
Proof.
  intros Hg. unfold check_permission.
  erewrite bind_ok by (apply get_group_data_resident; by rewrite Hg).
  erewrite bind_ok by (by apply getitem_default_run).
  reflexivity.
Qed.

Lemma check_permission_run user_id chat_id w :
  exists g,
    groups (_data (settle chat_id w)) !! str chat_id = Some g /\
    check_permission user_id chat_id w = (settle chat_id w, rank_in g user_id).
Proof.
  destruct (settle_resident chat_id w) as [g Hg]. exists g. split; [done|].
  unfold check_permission.
  erewrite bind_ok by apply get_group_data_ok.
  erewrite bind_ok by (by apply getitem_default_run).
  reflexivity.
Qed.

Lemma set_permission_resident user_id chat_id level w g d :
  groups (_data w) !! str chat_id = Some g ->
  default (VDict ∅) (g !! "permissions") = VDict d ->
  set_permission user_id chat_id level w =
  (written (with_group (str chat_id)
              (<["permissions" := VDict (<[str user_id := level]> d)]> g) w),
   Ok true).
Proof.
  intros Hg Hd. unfold set_permission. apply try_ok.
  erewrite bind_ok by (apply get_group_data_resident; by rewrite Hg).
  erewrite bind_ok by (by apply getitem_default_run).
  rewrite Hd. unfold lift at 1, dict_set. unfold bind at 1. cbv beta iota.
  erewrite bind_ok by (by apply setitem_run).
  erewrite bind_ok by (apply deref_run, lookup_with_group).
  erewrite bind_ok by apply save_group_data_run.
  by rewrite with_group_twice.
Qed.

Lemma set_permission_refused user_id chat_id level w g :
  groups (_data w) !! str chat_id = Some g ->
  (forall d, default (VDict ∅) (g !! "permissions") <> VDict d) ->
  set_permission user_id chat_id level w =
  (logged ErrorSettingPermission w, Ok false).
Proof.
  intros Hg Hd. unfold set_permission.
  erewrite try_raise; [reflexivity|].
  erewrite bind_ok by (apply get_group_data_resident; by rewrite Hg).
  erewrite bind_ok by (by apply getitem_default_run).
  apply bind_raise.
  destruct (default (VDict ∅) (g !! "permissions")) eqn:E; try reflexivity.
  by destruct (Hd d).
Qed.

(** Whatever follows [get_group_data] sees the settled world. *)
Lemma set_permission_settle user_id chat_id level w :
  set_permission user_id chat_id level w =
  set_permission user_id chat_id level (settle chat_id w).
Proof.
  unfold set_permission, try_except.
  rewrite (bind_ok _ _ _ _ _ (get_group_data_ok chat_id w)).
  rewrite (bind_ok _ _ _ _ _
             (get_group_data_resident chat_id _ (settle_resident chat_id w))).
  reflexivity.
Qed.

Lemma rank_in_insert_eq g d user_id level :
  rank_in (<["permissions" := VDict (<[str user_id := level]> d)]> g) user_id
  = Ok level.
Proof.
  unfold rank_in. rewrite lookup_insert_eq. cbn [default from_option id dict_get].
  by rewrite lookup_insert_eq.
Qed.

Lemma rank_in_insert_ne g d user_id other level :
  other <> user_id ->
  default (VDict ∅) (g !! "permissions") = VDict d ->
  rank_in (<["permissions" := VDict (<[str user_id := level]> d)]> g) other
  = rank_in g other.
Proof.
  intros Hne Hd. unfold rank_in. rewrite lookup_insert_eq, Hd.
  cbn [default from_option id dict_get].
  rewrite lookup_insert_ne; [done|]. intros E. by apply str_inj in E.
Qed.

(** ** Claims *)

(** C10. If [set_permission(u, g, l)] returns [True], then
    [check_permission(u, g)] called next returns exactly [l], and for every
    other user of [g] it returns what it returned before the set. *)
Theorem set_permission_then_check user_id chat_id level w w' :
  set_permission user_id chat_id level w = (w', Ok true) ->
  snd (check_permission user_id chat_id w') = Ok level /\
  forall other, other <> user_id ->
    snd (check_permission other chat_id w') =
    snd (check_permission other chat_id w).
Proof.
  rewrite set_permission_settle.
  destruct (settle_resident chat_id w) as [g Hg].
  destruct (default (VDict ∅) (g !! "permissions")) as [| | |d] eqn:Hd.
  1-3: erewrite set_permission_refused by (done || (intros d; by rewrite Hd));
       intros [=].
  erewrite set_permission_resident by done. intros [= <-].
  split.
  - erewrite check_permission_resident
      by (rewrite data_written; apply lookup_with_group).
    apply rank_in_insert_eq.
  - intros other Hne.
    erewrite check_permission_resident
      by (rewrite data_written; apply lookup_with_group).
    destruct (check_permission_run other chat_id w) as (g0 & Hg0 & ->).
    rewrite Hg in Hg0. injection Hg0 as <-.
    cbn [snd]. by apply rank_in_insert_ne.
Qed.

Lemma set_permission_then_check_witness :
  let w' := fst (set_permission 3 (-7) 10 sample_world) in
  snd (check_permission 3 (-7) w') = Ok 10 /\
  forall other, other <> 3 ->
    snd (check_permission other (-7) w') =
    snd (check_permission other (-7) sample_world).
Proof.
  apply (set_permission_then_check 3 (-7) 10 sample_world).
  vm_compute. reflexivity.
Defined.

(** ** The store *)

(** C4, as stated, fails: with a disk that cannot be written,
    [save_group_data] leaves the new record in memory and returns
    normally. *)
Lemma failed_write_keeps_mutation : ~ failed_write_rolls_back.
Proof.
  intros H.
  destruct (H (-7) (<["rules" := VStr "Be kind."]> sample_group)
              readonly_world _ _ eq_refl) as [Hmem _].
  - discriminate.
  - vm_compute in Hmem. discriminate.
Qed.

(** C4, amended. [save_group_data] puts the record in memory before it
    attempts the write and never takes it back: whatever the outcome of the
    write, the call returns normally and the record is in memory; the data
    file holds the new data only if the write succeeded, and a failed write
    is logged. *)
Theorem save_group_data_commits_in_memory chat_id g w :
  let o := disk w (length (trace w)) in
  exists w' b,
    save_group_data chat_id g w = (w', Ok b) /\
    groups (_data w') = <[str chat_id := g]> (groups (_data w)) /\
    data_file w' = match o with
                   | OpenFails => data_file w
                   | DumpFails => Corrupt
                   | WriteOk => Holds (_data w')
                   end /\
    trace w' = trace w ++
      [FileWrite o (_data w');
       Log (match o with WriteOk => DataSaved | _ => ErrorSavingData end)].
Proof.
  cbv zeta. eexists _, _. split; [apply save_group_data_run|].
  repeat split.
Qed.

(** ** Awaiting what a plain function returns *)

Lemma await_plain_run {A B} (m : M A) (k : A -> M B) w :
  bind (await_plain m) k w =
  (fst (m w),
   match snd (m w) with Ok _ => Raise TypeError | Raise e => Raise e end).
Proof. unfold await_plain, bind, raise. by destruct (m w) as [w1 [a|e]]. Qed.

Lemma emitted_app w w' evs : trace w' = trace w ++ evs -> emitted w w' = evs.
Proof. intros H. unfold emitted. by rewrite H, drop_app_length. Qed.

Lemma check_permission_settle user_id chat_id w :
  check_permission user_id chat_id w =
  check_permission user_id chat_id (settle chat_id w).
Proof.
  destruct (check_permission_run user_id chat_id w) as (g & Hg & ->).
  by rewrite (check_permission_resident _ _ _ _ Hg).
Qed.

Lemma check_permission_rank user_id chat_id w g n :
  groups (_data (settle chat_id w)) !! str chat_id = Some g ->
  snd (check_permission user_id chat_id w) = Ok n ->
  rank_in g user_id = Ok n.
Proof.
  intros Hg. destruct (check_permission_run user_id chat_id w) as (g' & Hg' & ->).
  rewrite Hg in Hg'. by injection Hg' as <-.
Qed.

(** A computation that starts by awaiting [check_permission] ends there:
    with the error of the check when it raises, with [TypeError] when it
    returns a rank. The world is the one the check leaves. *)
Lemma await_check_permission_run {A} user_id chat_id (k : Z -> M A) w :
  bind (await_plain (check_permission user_id chat_id)) k w =
  (settle chat_id w,
   match snd (check_permission user_id chat_id w) with
   | Ok _ => Raise TypeError
   | Raise e => Raise e
   end).
Proof.
  rewrite await_plain_run.
  by destruct (check_permission_run user_id chat_id w) as (g & _ & ->).
Qed.

Lemma handler_run c update context w :
  handler c update context w =
  (settle (chat_id (effective_chat update)) w,
   match snd (check_permission (user_id (effective_user update))
                (chat_id (effective_chat update)) w) with
   | Ok _ => Raise TypeError
   | Raise e => Raise e
   end).
Proof.
  destruct c; unfold handler;
    [unfold promote_command|unfold demote_command|unfold ban_command
    |unfold mute_command|unfold warn_command|unfold settings_command];
    cbv zeta; apply await_check_permission_run.
Qed.

Lemma settle_lines chat_id w :
  exists lines,
    trace (settle chat_id w) = trace w ++ lines /\
    (lines = [] \/ lines = [Log NoDataFile] \/ lines = [Log ErrorLoadingData]
     \/ lines = [Log DataLoaded]).
Proof.
  unfold settle, get_group_data, assign, load_data.
  unfold bind, ret, read_data, write_data, log, emit.
  destruct w as [d f t dk nw]; cbn [_data data_file trace disk network].
  case_bool_decide.
  - destruct f; cbn [_data data_file trace disk network];
      case_bool_decide; cbn [fst _data groups trace disk network];
      eexists; (split; [reflexivity|]); auto.
  - exists []. rewrite app_nil_r.
    case_bool_decide; cbn [fst _data groups trace disk network]; auto.
Qed.

Lemma emitted_settled chat_id w w' tail :
  trace w' = trace (settle chat_id w) ++ tail ->
  exists lines,
    emitted w w' = lines ++ tail /\
    (lines = [] \/ lines = [Log NoDataFile] \/ lines = [Log ErrorLoadingData]
     \/ lines = [Log DataLoaded]).
Proof.
  intros Ht. destruct (settle_lines chat_id w) as (lines & Hs & Hlines).
  exists lines. split; [|done].
  apply emitted_app. by rewrite Ht, Hs, <- app_assoc.
Qed.

Ltac read_events chat w :=
  match goal with
  | |- context [emitted w ?w'] =>
      let lines := fresh "lines" in
      let Hlines := fresh "Hlines" in
      edestruct (emitted_settled chat w w') as (lines & -> & Hlines);
      [ cbn [trace called logged written with_group message_counted];
        rewrite <- ?app_assoc; reflexivity
      | destruct Hlines as [->|[->|[->| ->]]]; cbn [app] ]
  end.

(** [get_group_data] calls no platform method and writes no file. *)
Lemma settle_events chat_id w :
  calls (emitted w (settle chat_id w)) = [] /\
  snapshots (emitted w (settle chat_id w)) = [].
Proof.
  destruct (emitted_settled chat_id w (settle chat_id w) [])
    as (lines & -> & Hlines); [by rewrite app_nil_r|].
  by destruct Hlines as [->|[->|[->| ->]]].
Qed.

(** ** The command handlers *)

(** C1. No command handler reaches its two rank guards: not promote,
    demote, ban, mute or warn, nor settings. Whatever the rank [a] of the
    sender and the rank of the member replied to, the run ends with
    [TypeError] at the first [await], the one of the sender's rank: no
    reply is sent, neither a refusal nor a confirmation, nothing is stored
    and nothing is written. A request that the rule [a >= min /\ a > b]
    grants is not carried out. *)
Theorem authorization_is_not_reached c update context w a :
  snd (check_permission (user_id (effective_user update))
         (chat_id (effective_chat update)) w) = Ok a ->
  let run := handler c update context w in
  snd run = Raise TypeError /\
  _data (fst run) = _data (settle (chat_id (effective_chat update)) w) /\
  calls (emitted w (fst run)) = [] /\
  snapshots (emitted w (fst run)) = [].
Proof.
  intros Ha. cbv zeta. rewrite handler_run, Ha. cbn [fst snd].
  split; [done|]. split; [done|]. apply settle_events.
Qed.

Lemma authorization_is_not_reached_witness :
  let run := handler Ban (reply_to alice carol "/ban") (mkContext [])
               sample_world in
  snd run = Raise TypeError /\
  _data (fst run) = _data (settle (-7) sample_world) /\
  calls (emitted sample_world (fst run)) = [] /\
  snapshots (emitted sample_world (fst run)) = [].
Proof.
  apply (authorization_is_not_reached Ban (reply_to alice carol "/ban")
           (mkContext []) sample_world 100).
  vm_compute. reflexivity.
Defined.

(** A handler leaves every rank as it was. *)
Lemma rank_after_handler c update context w member :
  snd (check_permission member (chat_id (effective_chat update))
         (fst (handler c update context w)))
  = snd (check_permission member (chat_id (effective_chat update)) w).
Proof.
  rewrite handler_run. cbn [fst]. by rewrite <- check_permission_settle.
Qed.

(** ** Promotion and demotion *)



(** C6. A promotion stores no rank. [promote_command] ends with
    [TypeError] at its first [await], and the member replied to has the
    rank they had: a member below moderator is not made moderator, a
    member at or above moderator is not made admin. *)
Theorem promotion_stores_no_rank update context target w a b :
  reply_to_message (update_message update) = Some (mkReplied (Some target)) ->
  snd (check_permission (user_id (effective_user update))
         (chat_id (effective_chat update)) w) = Ok a ->
  snd (check_permission (user_id target)
         (chat_id (effective_chat update)) w) = Ok b ->
  snd (promote_command update context w) = Raise TypeError /\
  snd (check_permission (user_id target) (chat_id (effective_chat update))
         (fst (promote_command update context w))) = Ok b.
Proof.
  intros _ Ha Hb. split.
  - change promote_command with (handler Promote). by rewrite handler_run, Ha.
  - by rewrite (rank_after_handler Promote).
Qed.

Lemma promotion_stores_no_rank_witness :
  snd (promote_command (reply_to alice carol "/promote") (mkContext [])
         sample_world) = Raise TypeError /\
  snd (check_permission 3 (-7)
         (fst (promote_command (reply_to alice carol "/promote")
                 (mkContext []) sample_world))) = Ok 0.
Proof.
  apply (promotion_stores_no_rank (reply_to alice carol "/promote")
           (mkContext []) carol sample_world 100 0).
  - reflexivity.
  - vm_compute. reflexivity.
  - vm_compute. reflexivity.
Defined.

(** C7. A demotion stores no rank. [demote_command] ends with [TypeError]
    at its first [await], and the member replied to has the rank they had:
    a member at or above moderator is not made regular, a member below
    moderator is not made restricted. *)
Theorem demotion_stores_no_rank update context target w a b :
  reply_to_message (update_message update) = Some (mkReplied (Some target)) ->
  snd (check_permission (user_id (effective_user update))
         (chat_id (effective_chat update)) w) = Ok a ->
  snd (check_permission (user_id target)
         (chat_id (effective_chat update)) w) = Ok b ->
  snd (demote_command update context w) = Raise TypeError /\
  snd (check_permission (user_id target) (chat_id (effective_chat update))
         (fst (demote_command update context w))) = Ok b.
Proof.
  intros _ Ha Hb. split.
  - change demote_command with (handler Demote). by rewrite handler_run, Ha.
  - by rewrite (rank_after_handler Demote).
Qed.

Lemma demotion_stores_no_rank_witness :
  snd (demote_command (reply_to alice bob "/demote") (mkContext [])
         sample_world) = Raise TypeError /\
  snd (check_permission 2 (-7)
         (fst (demote_command (reply_to alice bob "/demote")
                 (mkContext []) sample_world))) = Ok 50.
Proof.
  apply (demotion_stores_no_rank (reply_to alice bob "/demote")
           (mkContext []) bob sample_world 100 50).
  - reflexivity.
  - vm_compute. reflexivity.
  - vm_compute. reflexivity.
Defined.

(** ** Settings *)

(** C9. A setting is not stored, and none is read back.
    [settings_command] ends with [TypeError] at its first [await],
    whatever its arguments: the record of the group is the one it was, so
    the key named in the request holds what it held, and no overview of
    the settings is sent. *)
Theorem setting_is_not_stored update context w g a :
  groups (_data (settle (chat_id (effective_chat update)) w))
    !! str (chat_id (effective_chat update)) = Some g ->
  snd (check_permission (user_id (effective_user update))
         (chat_id (effective_chat update)) w) = Ok a ->
  let run := settings_command update context w in
  snd run = Raise TypeError /\
  groups (_data (fst run)) !! str (chat_id (effective_chat update)) = Some g /\
  calls (emitted w (fst run)) = [].
Proof.
  intros Hg Ha. cbv zeta.
  change settings_command with (handler Settings).
  rewrite handler_run, Ha. cbn [fst snd].
  split; [done|]. split; [done|]. apply settle_events.
Qed.

Lemma setting_is_not_stored_witness :
  let run := settings_command (reply_to alice bob "/settings")
               (mkContext ["welcome"; "off"]) sample_world in
  snd run = Raise TypeError /\
  groups (_data (fst run)) !! str (-7) = Some sample_group /\
  calls (emitted sample_world (fst run)) = [].
Proof.
  apply (setting_is_not_stored (reply_to alice bob "/settings")
           (mkContext ["welcome"; "off"]) sample_world sample_group 100).
  - vm_compute. reflexivity.
  - vm_compute. reflexivity.
Defined.

(** ** Warnings *)

(** C2. A warning is not counted. [warn_command] ends with [TypeError] at
    its first [await], before the counters: the record of the group is the
    one it was, so neither the count of the member nor [warnings_issued]
    has moved and no rank is forced, and nothing is written: there is no
    commit at all. *)
Theorem warning_is_not_counted update context w g a :
  groups (_data (settle (chat_id (effective_chat update)) w))
    !! str (chat_id (effective_chat update)) = Some g ->
  snd (check_permission (user_id (effective_user update))
         (chat_id (effective_chat update)) w) = Ok a ->
  let run := warn_command update context w in
  snd run = Raise TypeError /\
  groups (_data (fst run)) !! str (chat_id (effective_chat update)) = Some g /\
  snapshots (emitted w (fst run)) = [].
Proof.
  intros Hg Ha. cbv zeta.
  change warn_command with (handler Warn).
  rewrite handler_run, Ha. cbn [fst snd].
  split; [done|]. split; [done|]. apply settle_events.
Qed.

Lemma warning_is_not_counted_witness :
  let run := warn_command (reply_to bob carol "/warn") (mkContext [])
               warned_world in
  snd run = Raise TypeError /\
  groups (_data (fst run)) !! str (-7) = Some warned_group /\
  snapshots (emitted warned_world (fst run)) = [].
Proof.
  apply (warning_is_not_counted (reply_to bob carol "/warn") (mkContext [])
           warned_world warned_group 50).
  - vm_compute. reflexivity.
  - vm_compute. reflexivity.
Defined.

Lemma level_values :
  level "banned" = -100 /\ level "restricted" = -10 /\ level "regular" = 0 /\
  level "trusted" = 10 /\ level "moderator" = 50 /\ level "admin" = 100 /\
  level "owner" = 1000.
Proof. repeat split; reflexivity. Qed.


(** ** Text messages *)

Import MessageHandlers.

Lemma log_run l w : log l w = (logged l w, Ok tt).
Proof. reflexivity. Qed.

Lemma bind_lift_ok {A B} (a : A) (k : A -> M B) w :
  bind (lift (Ok a)) k w = k a w.
Proof. reflexivity. Qed.

Lemma rank_in_other_key g key v user_id :
  key <> "permissions" ->
  rank_in (<[key := v]> g) user_id = rank_in g user_id.
Proof. intros Hne. unfold rank_in. by rewrite lookup_insert_ne. Qed.

Lemma handle_text_message_settle re_search update context w :
  chat_type (effective_chat update) <> "private" ->
  handle_text_message re_search update context w =
  handle_text_message re_search update context
    (settle (chat_id (effective_chat update)) w).
Proof.
  intros Hgroup. unfold handle_text_message. cbv zeta.
  rewrite bool_decide_eq_false_2 by done.
  rewrite (bind_ok _ _ _ _ _ (get_group_data_ok (chat_id (effective_chat update)) w)).
  rewrite (bind_ok _ _ _ _ _
             (get_group_data_resident _ _
                (settle_resident (chat_id (effective_chat update)) w))).
  reflexivity.
Qed.

Section TextMessage.
Variable re_search : string -> string -> option string.
Variables (update : Update) (context : Context).
Variables (w : world) (g : obj) (count : value).
Hypothesis in_group : chat_type (effective_chat update) <> "private".
Hypothesis resident :
  groups (_data w) !! str (chat_id (effective_chat update)) = Some g.
Hypothesis counted : add_one (default (VInt 0) (g !! "message_count")) = Ok count.

(** The message is counted and the count saved; the run then ends at the
    [await] of the sender's rank. *)
Lemma text_message_run :
  handle_text_message re_search update context w =
  (message_counted (chat_id (effective_chat update)) g count w,
   match rank_in g (user_id (effective_user update)) with
   | Ok _ => Raise TypeError
   | Raise e => Raise e
   end).
Proof using All.
  unfold handle_text_message, message_counted. cbv zeta.
  rewrite bool_decide_eq_false_2 by done.
  erewrite bind_ok by (apply get_group_data_resident; by rewrite resident).
  erewrite bind_ok by (by apply getitem_default_run).
  rewrite counted, bind_lift_ok.
  erewrite bind_ok by (by apply setitem_run).
  erewrite bind_ok by (apply deref_run, lookup_with_group).
  erewrite bind_ok by apply save_group_data_run.
  rewrite with_group_twice, await_plain_run.
  erewrite check_permission_resident by apply lookup_with_group.
  by rewrite rank_in_other_key.
Qed.

End TextMessage.

(** C8. The content screen is not reached. For a message in a group,
    [handle_text_message] counts the message and then ends with
    [TypeError] at the [await] of the sender's rank, before the screen:
    whatever the text and the two toggles, no detection is logged, the
    message is neither removed nor flagged, and no platform call is
    made. *)
Theorem content_screen_is_not_reached re_search update context w g count p :
  chat_type (effective_chat update) <> "private" ->
  groups (_data (settle (chat_id (effective_chat update)) w))
    !! str (chat_id (effective_chat update)) = Some g ->
  add_one (default (VInt 0) (g !! "message_count")) = Ok count ->
  snd (check_permission (user_id (effective_user update))
         (chat_id (effective_chat update)) w) = Ok p ->
  let run := handle_text_message re_search update context w in
  snd run = Raise TypeError /\
  screen_action (emitted w (fst run)) = Allow /\
  calls (emitted w (fst run)) = [].
Proof.
  intros Hgroup Hg Hcount Hp. cbv zeta.
  apply (check_permission_rank _ _ _ _ _ Hg) in Hp.
  rewrite handle_text_message_settle by done.
  rewrite (text_message_run re_search update context _ g count) by done.
  rewrite Hp. cbn [fst snd].
  set (chat := chat_id (effective_chat update)) in *.
  split; [done|].
  split; (read_events chat w; by destruct (disk _ _)).
Qed.

Lemma content_screen_is_not_reached_witness :
  let run := handle_text_message sample_search
               (reply_to bob alice "badword1 to you") (mkContext [])
               sample_world in
  snd run = Raise TypeError /\
  screen_action (emitted sample_world (fst run)) = Allow /\
  calls (emitted sample_world (fst run)) = [].
Proof.
  apply (content_screen_is_not_reached sample_search
           (reply_to bob alice "badword1 to you") (mkContext []) sample_world
           sample_group (VInt 1) 50).
  - discriminate.
  - vm_compute. reflexivity.
  - reflexivity.
  - vm_compute. reflexivity.
Defined.

(** * Further properties *)

Import StorageRest.

(** ** The store, continued *)

(** X1. When [get_group_data] returns, it returns the key of the chat and
    leaves the record of the chat in memory; it does nothing to a world in
    which the record already is, and so does nothing when called a second
    time. *)
Theorem get_group_data_settles chat_id w w' r :
  get_group_data chat_id w = (w', Ok r) ->
  r = str chat_id /\
  is_Some (groups (_data w') !! str chat_id) /\
  (is_Some (groups (_data w) !! str chat_id) -> w' = w) /\
  get_group_data chat_id w' = (w', Ok r).
Proof.
  rewrite get_group_data_ok. intros [= <- <-].
  split; [done|]. split; [apply settle_resident|]. split.
  - apply settle_settled.
  - apply get_group_data_resident, settle_resident.
Qed.

Lemma get_group_data_settles_witness :
  let w' := fst (get_group_data (-7) stale_world) in
  "-7" = str (-7) /\
  is_Some (groups (_data w') !! str (-7)) /\
  (is_Some (groups (_data stale_world) !! str (-7)) -> w' = stale_world) /\
  get_group_data (-7) w' = (w', Ok "-7").
Proof.
  apply (get_group_data_settles (-7) stale_world). reflexivity.
Defined.

(** The stored data after [get_group_data], in full. *)
Lemma settle_data chat_id w :
  let loaded :=
    if bool_decide (groups (_data w) = ∅) then
      match data_file w with Holds d => d | _ => _data w end
    else _data w in
  _data (settle chat_id w) =
  if bool_decide (is_Some (groups loaded !! str chat_id)) then loaded
  else Data (<[str chat_id := ∅]> (groups loaded)) (users loaded).
Proof.
  cbv zeta. unfold settle, get_group_data, assign, load_data.
  unfold bind, ret, read_data, write_data, log, emit.
  destruct w as [d f t dk nw]; cbn [_data data_file trace disk network].
  case_bool_decide.
  - destruct f; cbn [_data data_file trace disk network fst];
      case_bool_decide; cbn [fst _data]; by rewrite ?data_eta.
  - cbn [_data]. case_bool_decide; cbn [fst _data]; by rewrite ?data_eta.
Qed.

(** X2. When no group is in memory and the data file can be read,
    [get_group_data] replaces the whole of [_data] by the contents of the
    file before it looks the chat up: the users in memory are dropped for
    those of the file. *)
Theorem get_group_data_reloads chat_id w d :
  groups (_data w) = ∅ ->
  data_file w = Holds d ->
  let w' := fst (get_group_data chat_id w) in
  users (_data w') = users d /\
  groups (_data w') =
    if bool_decide (is_Some (groups d !! str chat_id)) then groups d
    else <[str chat_id := ∅]> (groups d).
Proof.
  intros Hempty Hfile. cbv zeta.
  change (fst (get_group_data chat_id w)) with (settle chat_id w).
  rewrite settle_data. cbv zeta.
  rewrite (bool_decide_eq_true_2 _ Hempty), Hfile.
  by case_bool_decide.
Qed.

Lemma get_group_data_reloads_witness :
  let w' := fst (get_group_data (-7) stale_world) in
  users (_data w') = users (_data sample_world) /\
  groups (_data w') =
    if bool_decide (is_Some (groups (_data sample_world) !! str (-7)))
    then groups (_data sample_world)
    else <[str (-7) := ∅]> (groups (_data sample_world)).
Proof.
  apply (get_group_data_reloads (-7) stale_world (_data sample_world));
    reflexivity.
Defined.

Lemma restart_data w :
  _data (restart w) = match data_file w with Holds d => d | _ => Data ∅ ∅ end.
Proof.
  unfold restart, module_init, load_data, bind, write_data, log, emit.
  cbn [data_file]. by destruct (data_file w).
Qed.

(** X3. A record saved by [save_group_data] with a write that succeeds
    survives a restart: importing the module afresh gives back exactly the
    data that were in memory after the save. *)
Theorem save_survives_restart chat_id g w :
  disk w (length (trace w)) = WriteOk ->
  let w1 := fst (save_group_data chat_id g w) in
  _data (restart w1) = _data w1 /\
  groups (_data (restart w1)) !! str chat_id = Some g.
Proof.
  intros Hok. cbv zeta. rewrite save_group_data_run. cbn [fst].
  rewrite restart_data. unfold written.
  cbn [data_file disk trace with_group _data]. rewrite Hok.
  split; [reflexivity|]. cbn [groups]. apply lookup_insert_eq.
Qed.

Lemma save_survives_restart_witness :
  let w1 := fst (save_group_data (-7) warned_group sample_world) in
  _data (restart w1) = _data w1 /\
  groups (_data (restart w1)) !! str (-7) = Some warned_group.
Proof.
  apply (save_survives_restart (-7) warned_group sample_world). reflexivity.
Defined.

(** X4. When the write of the data file fails midway, [save_group_data]
    still returns, and a restart then finds nothing: the file was
    truncated, so every group and every user is gone, not only the record
    being saved. *)
Theorem failed_dump_loses_everything chat_id g w :
  disk w (length (trace w)) = DumpFails ->
  let w1 := fst (save_group_data chat_id g w) in
  _data (restart w1) = Data ∅ ∅.
Proof.
  intros Hfail. cbv zeta. rewrite save_group_data_run. cbn [fst].
  rewrite restart_data. unfold written.
  cbn [data_file disk trace with_group]. by rewrite Hfail.
Qed.

Lemma failed_dump_loses_everything_witness :
  let w1 := fst (save_group_data (-7) warned_group full_disk_world) in
  _data (restart w1) = Data ∅ ∅.
Proof.
  apply (failed_dump_loses_everything (-7) warned_group full_disk_world).
  reflexivity.
Defined.

(** X5. When the data file cannot be opened for writing, the record saved
    by [save_group_data] lives in memory only: a restart gives back what the
    file held before the call. *)
Theorem failed_open_keeps_old_file chat_id g w d :
  disk w (length (trace w)) = OpenFails ->
  data_file w = Holds d ->
  let w1 := fst (save_group_data chat_id g w) in
  groups (_data w1) !! str chat_id = Some g /\
  _data (restart w1) = d.
Proof.
  intros Hfail Hfile. cbv zeta. rewrite save_group_data_run. cbn [fst].
  split; [apply lookup_with_group|].
  rewrite restart_data. unfold written.
  cbn [data_file disk trace with_group]. by rewrite Hfail, Hfile.
Qed.

Lemma failed_open_keeps_old_file_witness :
  let w1 := fst (save_group_data (-7) warned_group locked_disk_world) in
  groups (_data w1) !! str (-7) = Some warned_group /\
  _data (restart w1) = _data sample_world.
Proof.
  apply (failed_open_keeps_old_file (-7) warned_group locked_disk_world);
    reflexivity.
Defined.

(** The stored data after [get_user_data], in full. *)
Lemma settle_user_data user_id w :
  let loaded :=
    if bool_decide (users (_data w) = ∅) then
      match data_file w with Holds d => d | _ => _data w end
    else _data w in
  _data (settle_user user_id w) =
  if bool_decide (is_Some (users loaded !! str user_id)) then loaded
  else Data (groups loaded) (<[str user_id := ∅]> (users loaded)).
Proof.
  cbv zeta. unfold settle_user, get_user_data, assign_user, load_data.
  unfold bind, ret, read_data, write_data, log, emit.
  destruct w as [d f t dk nw]; cbn [_data data_file trace disk network].
  case_bool_decide.
  - destruct f; cbn [_data data_file trace disk network fst];
      case_bool_decide; cbn [fst _data]; by rewrite ?data_eta.
  - cbn [_data]. case_bool_decide; cbn [fst _data]; by rewrite ?data_eta.
Qed.

Lemma get_user_data_ok user_id w :
  get_user_data user_id w = (settle_user user_id w, Ok (str user_id)).
Proof.
  unfold settle_user, get_user_data, assign_user, load_data.
  unfold bind, ret, read_data, write_data, log, emit.
  destruct w as [d f t dk nw]; cbn [_data data_file trace disk network].
  case_bool_decide.
  - destruct f; cbn [_data data_file trace disk network];
      case_bool_decide; reflexivity.
  - case_bool_decide; reflexivity.
Qed.

Lemma get_user_data_resident user_id w :
  is_Some (users (_data w) !! str user_id) ->
  get_user_data user_id w = (w, Ok (str user_id)).
Proof.
  intros Hres.
  unfold get_user_data, assign_user, load_data.
  unfold bind, ret, read_data, write_data, log, emit.
  destruct w as [d f t dk nw]; cbn [_data data_file trace disk network] in *.
  rewrite bool_decide_eq_false_2.
  - rewrite bool_decide_eq_true_2 by done. reflexivity.
  - intros Hempty. rewrite Hempty, lookup_empty in Hres. by destruct Hres.
Qed.

(** X6. When no user is in memory and the data file can be read,
    [get_user_data] reloads the whole of [_data]: the groups in memory,
    with whatever was changed in them and not written, are dropped for those
    of the file. *)
Theorem get_user_data_reloads user_id w d :
  users (_data w) = ∅ ->
  data_file w = Holds d ->
  let w' := fst (get_user_data user_id w) in
  groups (_data w') = groups d /\
  is_Some (users (_data w') !! str user_id).
Proof.
  intros Hempty Hfile. cbv zeta.
  change (fst (get_user_data user_id w)) with (settle_user user_id w).
  rewrite settle_user_data. cbv zeta.
  rewrite (bool_decide_eq_true_2 _ Hempty), Hfile.
  case_bool_decide; cbn [groups users]; [done|].
  split; [done|]. by rewrite lookup_insert_eq.
Qed.

Lemma get_user_data_reloads_witness :
  let w' := fst (get_user_data 3 unsaved_world) in
  groups (_data w') = groups (_data sample_world) /\
  is_Some (users (_data w') !! str 3).
Proof.
  apply (get_user_data_reloads 3 unsaved_world (_data sample_world));
    reflexivity.
Defined.

(** ** Permissions, continued *)

Lemma snapshots_settled chat_id w w' line :
  trace w' = trace (settle chat_id w) ++ [Log line] ->
  snapshots (emitted w w') = [].
Proof.
  intros Ht. destruct (emitted_settled chat_id w w' _ Ht) as (lines & -> & H).
  by destruct H as [->|[->|[->| ->]]].
Qed.

(** X7. [set_permission] never raises. It returns [False] exactly when
    [check_permission] would raise, that is when the [permissions] entry of
    the group is not a dictionary; it has then written nothing to the file
    and changed nothing in memory beyond what [get_group_data] does. *)
Theorem set_permission_fails_with_check user_id other chat_id level w :
  let w' := fst (set_permission user_id chat_id level w) in
  (exists ok, snd (set_permission user_id chat_id level w) = Ok ok) /\
  (snd (set_permission user_id chat_id level w) = Ok false <->
   exists e, snd (check_permission other chat_id w) = Raise e) /\
  (snd (set_permission user_id chat_id level w) = Ok false ->
   _data w' = _data (settle chat_id w) /\ snapshots (emitted w w') = []).
Proof.
  cbv zeta. rewrite set_permission_settle.
  destruct (check_permission_run other chat_id w) as (g & Hg & ->).
  cbn [snd]. unfold rank_in.
  destruct (default (VDict ∅) (g !! "permissions")) as [| | |d] eqn:Hd.
  1-3: erewrite set_permission_refused by (done || (intros d; by rewrite Hd));
       cbn [fst snd dict_get];
       (split; [by eexists|]); (split; [split; [by eexists|done]|]);
       intros _; (split; [done|]);
       by apply (snapshots_settled chat_id _ _ ErrorSettingPermission).
  erewrite set_permission_resident by done. cbn [fst snd dict_get].
  split; [by eexists|]. split; [|done].
  split; [done|]. by intros [e He].
Qed.

Lemma settle_other_group chat_id other w :
  other <> chat_id ->
  is_Some (groups (_data w) !! str chat_id) ->
  groups (_data (settle other w)) !! str chat_id
  = groups (_data w) !! str chat_id.
Proof.
  intros Hne Hres. rewrite settle_data. cbv zeta.
  rewrite (bool_decide_eq_false_2 (groups (_data w) = ∅)).
  - case_bool_decide; [done|]. cbn [groups].
    apply lookup_insert_ne. intros E. by apply str_inj in E.
  - intros Hempty. rewrite Hempty, lookup_empty in Hres. by destruct Hres.
Qed.

(** X8. Groups are kept apart: with the record of a chat in memory,
    [set_permission] in another chat leaves every rank of the first as it
    was. *)
Theorem set_permission_other_group user_id chat_id other_user other_chat level w :
  other_chat <> chat_id ->
  is_Some (groups (_data w) !! str chat_id) ->
  snd (check_permission user_id chat_id
         (fst (set_permission other_user other_chat level w)))
  = snd (check_permission user_id chat_id w).
Proof.
  intros Hne [g Hg].
  assert (str other_chat <> str chat_id) as Hstr
    by (intros E; by apply str_inj in E).
  rewrite (check_permission_resident _ _ _ _ Hg).
  assert (groups (_data (settle other_chat w)) !! str chat_id = Some g) as Hg1.
  { rewrite settle_other_group by (done || by eexists). exact Hg. }
  rewrite set_permission_settle.
  destruct (settle_resident other_chat w) as [g' Hg'].
  destruct (default (VDict ∅) (g' !! "permissions")) as [| | |d] eqn:Hd.
  1-3: erewrite set_permission_refused by (done || (intros d; by rewrite Hd));
       cbn [fst]; by erewrite check_permission_resident by exact Hg1.
  erewrite set_permission_resident by done. cbn [fst].
  erewrite check_permission_resident; [reflexivity|].
  rewrite data_written, lookup_with_group_ne by done. exact Hg1.
Qed.

Lemma set_permission_other_group_witness :
  snd (check_permission 2 (-7) (fst (set_permission 2 (-8) 1000 sample_world)))
  = snd (check_permission 2 (-7) sample_world).
Proof.
  apply (set_permission_other_group 2 (-7) 2 (-8) 1000 sample_world).
  - discriminate.
  - vm_compute. by eexists.
Defined.

Import PermissionsRest.

Lemma name_of_level_unknown items l :
  name_of_level items l = None <-> forall name, (name, l) ∉ items.
Proof.
  induction items as [|[name' l'] items IH]; cbn [name_of_level].
  - split; [|done]. intros _ name. apply not_elem_of_nil.
  - destruct (Z.eqb_spec l' l) as [->|Hne].
    + split; [done|]. intros H. destruct (H name'). apply list_elem_of_here.
    + rewrite IH. split.
      * intros H name Hin. apply elem_of_cons in Hin as [[= -> ->]|Hin];
          [done|by apply (H name)].
      * intros H name Hin. apply (H name). by apply list_elem_of_further.
Qed.

(** X9. [get_permission_name] inverts the table of levels: for every entry
    of [PERMISSION_LEVELS] it gives back the entry's name (capitalized, in
    [permissions.py]), and it answers "unknown" exactly for the levels that
    are not in the table. *)
Theorem permission_name_inverts_level l :
  (forall name, (name, l) ∈ PERMISSION_LEVELS ->
     CommandHandlersRest.get_permission_name l = name /\
     get_permission_name l = capitalize name) /\
  (CommandHandlersRest.get_permission_name l = "unknown" <->
   forall name, (name, l) ∉ PERMISSION_LEVELS) /\
  (get_permission_name l = "Unknown" <->
   forall name, (name, l) ∉ PERMISSION_LEVELS).
Proof.
  split; [|split].
  - intros name Hin. unfold PERMISSION_LEVELS in Hin.
    repeat (apply elem_of_cons in Hin as [[= -> ->]|Hin]; [by split|]).
    by apply elem_of_nil in Hin.
  - rewrite <- name_of_level_unknown.
    unfold CommandHandlersRest.get_permission_name.
    destruct (name_of_level PERMISSION_LEVELS l) as [name|] eqn:E; [|done].
    split; [|done]. intros ->. exfalso. revert E. unfold PERMISSION_LEVELS.
    cbn [name_of_level]. repeat (case_match; [by intros [=]|]). done.
  - rewrite <- name_of_level_unknown.
    unfold get_permission_name.
    destruct (name_of_level PERMISSION_LEVELS l) as [name|] eqn:E; [|done].
    split; [|done]. intros Hcap. exfalso. revert E Hcap.
    unfold PERMISSION_LEVELS.
    cbn [name_of_level]. repeat (case_match; [by intros [= <-]|]). done.
Qed.

(** ** Text messages: what is stored *)



(** X21. When the message count of a group is not a number, a text message
    in the group is neither counted nor screened: the handler raises the
    error of the addition at once, having done no more than
    [get_group_data] does: no rank is looked up, nothing is written, and no
    message is deleted, not even one of a banned member. *)
Theorem uncountable_message_is_not_screened re_search update context w g e :
  chat_type (effective_chat update) <> "private" ->
  groups (_data (settle (chat_id (effective_chat update)) w))
    !! str (chat_id (effective_chat update)) = Some g ->
  add_one (default (VInt 0) (g !! "message_count")) = Raise e ->
  handle_text_message re_search update context w
  = (settle (chat_id (effective_chat update)) w, Raise TypeError).
Proof.
  intros Hgroup Hg Hcount.
  rewrite handle_text_message_settle by done.
  unfold handle_text_message. cbv zeta.
  rewrite bool_decide_eq_false_2 by done.
  erewrite bind_ok by (apply get_group_data_resident; by rewrite Hg).
  erewrite bind_ok by (by apply getitem_default_run).
  destruct (default (VInt 0) (g !! "message_count")); by try discriminate.
Qed.

Lemma uncountable_message_is_not_screened_witness :
  handle_text_message sample_search (reply_to bob alice "badword1 to you")
    (mkContext []) miscounted_world
  = (settle (-7) miscounted_world, Raise TypeError).
Proof.
  apply (uncountable_message_is_not_screened sample_search
           (reply_to bob alice "badword1 to you") (mkContext [])
           miscounted_world
           (<["message_count" := VStr "many"]> sample_group) TypeError).
  - discriminate.
  - vm_compute. reflexivity.
  - reflexivity.
Defined.

(** ** The content check *)

Lemma lower_empty s : lower s = "" <-> s = "".
Proof. by destruct s. Qed.

(** X22. [check_message_content] does not tell upper case from lower:
    two messages with the same lower-case form get the same verdict and the
    same reason, whatever the patterns find. *)
Theorem content_check_ignores_case re_search m1 m2 :
  lower m1 = lower m2 ->
  Moderation.check_message_content re_search m1
  = Moderation.check_message_content re_search m2.
Proof.
  intros Hlow. unfold Moderation.check_message_content.
  rewrite <- Hlow.
  assert (m1 = "" <-> m2 = "") as Hempty.
  { rewrite <- (lower_empty m1), <- (lower_empty m2). by rewrite Hlow. }
  do 2 case_bool_decide; tauto.
Qed.

Lemma content_check_ignores_case_witness :
  Moderation.check_message_content sample_search "A BadWord1 here"
  = Moderation.check_message_content sample_search "a BADWORD1 here".
Proof.
  apply (content_check_ignores_case sample_search). reflexivity.
Defined.

(** ** Profiles *)

Import Helpers.

Lemma get_user_profile_run user_id chat_id w :
  exists g,
    let w' := settle chat_id (settle_user user_id w) in
    groups (_data w') !! str chat_id = Some g /\
    get_user_profile user_id chat_id w =
    (w',
     match rank_in g user_id,
           dict_get (default (VDict ∅) (g !! "warnings")) (str user_id) 0,
           dict_get_opt (default (VDict ∅) (g !! "member_joined")) (str user_id)
     with
     | Ok l, Ok n, Ok j => Ok (Profile user_id l (str user_id) n j)
     | Raise e, _, _ | Ok _, Raise e, _ | Ok _, Ok _, Raise e => Raise e
     end).
Proof.
  destruct (settle_resident chat_id (settle_user user_id w)) as [g Hg].
  exists g. cbv zeta. split; [done|].
  unfold get_user_profile.
  erewrite bind_ok by apply get_user_data_ok.
  erewrite bind_ok by apply get_group_data_ok.
  erewrite bind_ok by (by apply getitem_default_run).
  unfold rank_in. destruct level_values as (_ & _ & -> & _).
  destruct (dict_get (default (VDict ∅) (g !! "permissions")) _ _) as [l|e];
    [rewrite bind_lift_ok|done].
  erewrite bind_ok by (by apply getitem_default_run).
  destruct (dict_get (default (VDict ∅) (g !! "warnings")) _ _) as [n|e];
    [rewrite bind_lift_ok|done].
  erewrite bind_ok by (by apply getitem_default_run).
  by destruct (dict_get_opt _ _) as [j|e].
Qed.

(** X24. The rank in a profile is the rank that decides: when
    [get_user_profile] returns, the [permission_level] of the profile is
    what [check_permission] answers for the same user and chat in the world
    it leaves, and that check changes nothing more. *)
Theorem profile_level_is_checked_rank user_id chat_id w w' p :
  get_user_profile user_id chat_id w = (w', Ok p) ->
  check_permission user_id chat_id w' = (w', Ok (permission_level p)) /\
  profile_user_id p = user_id.
Proof.
  intros Hrun.
  destruct (get_user_profile_run user_id chat_id w) as (g & Hg & Hp).
  cbv zeta in Hg, Hp. rewrite Hp in Hrun.
  injection Hrun as <- Hres.
  rewrite (check_permission_resident _ _ _ _ Hg).
  destruct (rank_in g user_id) as [l|]; [|done].
  destruct (dict_get _ _ _) as [n|]; [|done].
  destruct (dict_get_opt _ _) as [j|]; [|done].
  by injection Hres as <-.
Qed.

Lemma profile_level_is_checked_rank_witness :
  let run := get_user_profile 2 (-7) sample_world in
  check_permission 2 (-7) (fst run) = (fst run, Ok (permission_level (Profile 2 50 "2" 0 None))) /\
  profile_user_id (Profile 2 50 "2" 0 None) = 2.
Proof.
  apply (profile_level_is_checked_rank 2 (-7) sample_world).
  vm_compute. reflexivity.
Defined.

(** ** Initialisation of a group *)

(** X26. [init_group_permissions] grants nothing: it never raises, and
    every user has in the group the rank they had before it ran. What it
    stores under [permissions] is what it read there. *)
Theorem init_group_permissions_grants_nothing
    permissions_initialized error_initializing chat_id user_id w :
  let run :=
    init_group_permissions permissions_initialized error_initializing
      chat_id w in
  snd run = Ok tt /\
  snd (check_permission user_id chat_id (fst run))
  = snd (check_permission user_id chat_id w).
Proof.
  cbv zeta. unfold init_group_permissions.
  destruct (settle_resident chat_id w) as [g Hg].
  erewrite try_ok.
  2: { erewrite bind_ok by apply get_group_data_ok.
       erewrite bind_ok by (by apply getitem_default_run).
       erewrite bind_ok by (by apply setitem_run).
       erewrite bind_ok by (apply deref_run, lookup_with_group).
       erewrite bind_ok by apply save_group_data_run.
       rewrite with_group_twice. apply log_run. }
  cbn [fst snd]. split; [done|].
  rewrite (check_permission_settle user_id chat_id w).
  rewrite (check_permission_resident _ _ _ _ Hg).
  erewrite check_permission_resident
    by (rewrite data_logged, data_written; apply lookup_with_group).
  cbn [snd]. unfold rank_in. rewrite lookup_insert_eq.
  by destruct (g !! "permissions").
Qed.

(** ** Unmute and unban *)

Lemma settle_rank member chat_id w :
  snd (check_permission member chat_id (settle chat_id w))
  = snd (check_permission member chat_id w).
Proof. by rewrite <- check_permission_settle. Qed.

(** X23. [/unmute] lifts no restriction: [unmute_command] ends in an
    error at its first [await], the one of the sender's rank, whoever
    sends it and whoever is replied to. No rank is stored, so every
    member has the rank they had, and no platform call is made. *)
Theorem unmute_changes_nothing no_permission need_target
    by_username_unsupported target_unknown unmuted unmute_failed
    failed_to_unmute update context member w :
  let run :=
    CommandHandlersRest.unmute_command no_permission need_target
      by_username_unsupported target_unknown unmuted unmute_failed
      failed_to_unmute update context w in
  (exists e, snd run = Raise e) /\
  _data (fst run) = _data (settle (chat_id (effective_chat update)) w) /\
  calls (emitted w (fst run)) = [] /\
  snd (check_permission member (chat_id (effective_chat update)) (fst run))
  = snd (check_permission member (chat_id (effective_chat update)) w).
Proof.
  cbv zeta. unfold CommandHandlersRest.unmute_command. cbv zeta.
  rewrite await_check_permission_run. cbn [fst snd].
  split; [destruct (snd _); by eexists|]. split; [done|].
  split; [apply settle_events|apply settle_rank].
Qed.

(** X27. [/unban] unbans nobody and answers nothing: [unban_command]
    ends in an error at its first [await], whoever sends it and whatever
    its arguments. The stored data are as [get_group_data] leaves them,
    every user, a banned one included, has the rank they had, and no reply
    is sent. *)
Theorem unban_changes_no_rank no_permission need_username not_implemented
    update context member w :
  let run :=
    CommandHandlersRest.unban_command no_permission need_username
      not_implemented update context w in
  (exists e, snd run = Raise e) /\
  _data (fst run) = _data (settle (chat_id (effective_chat update)) w) /\
  calls (emitted w (fst run)) = [] /\
  snd (check_permission member (chat_id (effective_chat update)) (fst run))
  = snd (check_permission member (chat_id (effective_chat update)) w).
Proof.
  cbv zeta. unfold CommandHandlersRest.unban_command. cbv zeta.
  rewrite await_check_permission_run. cbn [fst snd].
  split; [destruct (snd _); by eexists|]. split; [done|].
  split; [apply settle_events|apply settle_rank].
Qed.
